(** * Admin user-management backend (src/backend.js)

    A shallow embedding of the Express application of [src/backend.js]:
    the [requireAdmin] middleware and the three relay handlers
    ([/admin/create-user], [/admin/list-users], [/admin/delete-user]),
    together with [/admin/health].

    The identity provider (the Supabase client [adminClient]) is external
    to the file.  It is modelled as an arbitrary, possibly stateful oracle
    answering each call with a settled promise; handlers are programs of a
    small free monad whose only effect is awaiting such a call, and whose
    result may be a thrown JavaScript exception. *)

From Stdlib Require Import String List Bool Arith Lia PrimFloat.
Import ListNotations.
Local Open Scope string_scope.
Local Open Scope bool_scope.
Local Set Warnings "-register-all".

(** ** JavaScript values *)

(** The plain-data fragment of JavaScript values: what [express.json()]
    puts in [req.body] and what the provider SDK hands back.  Objects keep
    their fields in insertion order. *)
Inductive value : Type :=
| VUndefined
| VNull
| VBool (b : bool)
| VNum (f : float)
| VStr (s : string)
| VArr (items : list value)
| VObj (fields : list (string * value)).

(** ToBoolean: [undefined], [null], [false], [+0], [-0], [NaN] and the
    empty string are falsy; everything else, every array and object
    included, is truthy. *)
Definition truthy (v : value) : bool :=
  match v with
  | VUndefined => false
  | VNull => false
  | VBool b => b
  | VNum f => negb (PrimFloat.eqb f 0%float || negb (PrimFloat.eqb f f))
  | VStr s => negb (String.eqb s "")
  | VArr _ => true
  | VObj _ => true
  end.

(** [a || b] *)
Definition js_or (a b : value) : value := if truthy a then a else b.

(** [null] and [undefined]: the values on which property access and
    destructuring throw a TypeError. *)
Definition nullish (v : value) : bool :=
  match v with
  | VUndefined | VNull => true
  | _ => false
  end.

Fixpoint own_field (k : string) (fields : list (string * value)) : option value :=
  match fields with
  | [] => None
  | (k', v) :: rest => if String.eqb k k' then Some v else own_field k rest
  end.

(** [v[k]] for the property names the program reads ([data], [user],
    [error], [message], [user_metadata], [role], [email], [password],
    [id], [users]).  None of them is an inherited member of a primitive
    wrapper, of [Array.prototype] or of [Object.prototype], so only the
    own fields of an object can answer.  On [null] and [undefined], where
    the access itself throws (see [member]), the value is immaterial and
    set to [undefined]. *)
Definition get_prop (v : value) (k : string) : value :=
  match v with
  | VObj fields =>
      match own_field k fields with
      | Some x => x
      | None => VUndefined
      end
  | _ => VUndefined
  end.

(** [v === s] for a string literal [s]. *)
Definition strict_eq_string (v : value) (s : string) : bool :=
  match v with
  | VStr t => String.eqb t s
  | _ => false
  end.

(** [h.startsWith(p)] and [h.slice(n)] on header strings (one character
    per byte, as Node decodes headers). *)
Definition startsWith (h p : string) : bool := String.prefix p h.

Definition slice (n : nat) (h : string) : string :=
  String.substring n (String.length h - n) h.

(** The exception raised by property access or destructuring on a
    nullish value. *)
Definition TypeError : value := VObj [("name", VStr "TypeError")].

(** ** Requests and responses *)

(** [req] as the routes see it, after [cors()] and [express.json()] have
    passed it on.  [req_body] is [VUndefined] when no body was parsed. *)
Record request : Type := mkRequest {
  req_method : string;
  req_path : string;
  req_authorization : option string;   (* req.headers['authorization'] *)
  req_body : value;
  req_user : value
}.

(** What was sent: the status and the value handed to [res.json]. *)
Record response : Type := mkResponse {
  res_status : nat;
  res_body : value
}.

(** [res.json(b)] *)
Definition json (b : value) : response := mkResponse 200 b.

(** [res.status(n).json(b)] *)
Definition status_json (n : nat) (b : value) : response := mkResponse n b.

Definition error_body (msg : value) : value := VObj [("error", msg)].

Definition set_user (req : request) (u : value) : request :=
  mkRequest (req_method req) (req_path req) (req_authorization req)
            (req_body req) u.

(** ** Provider calls and handler programs *)

(** The four operations of [adminClient] used by the file. *)
Inductive call : Type :=
| auth_getUser (token : value)
| auth_admin_createUser (attrs : value)
| auth_admin_listUsers
| auth_admin_deleteUser (id : value).

(** A settled promise. *)
Inductive settled : Type :=
| Fulfilled (v : value)
| Rejected (e : value).

(** Handler code: it returns, throws, or awaits a provider call and goes
    on with the settled promise. *)
Inductive prog (A : Type) : Type :=
| Ret (a : A)
| Throw (e : value)
| Await (c : call) (k : settled -> prog A).

Arguments Ret {A} a.
Arguments Throw {A} e.
Arguments Await {A} c k.

Fixpoint bind {A B : Type} (p : prog A) (f : A -> prog B) : prog B :=
  match p with
  | Ret a => f a
  | Throw e => Throw e
  | Await c k => Await c (fun o => bind (k o) f)
  end.

Declare Scope prog_scope.
Delimit Scope prog_scope with prog.
Notation "x <- p ;; q" := (bind p (fun x => q))
  (at level 61, p at next level, right associativity) : prog_scope.
Notation "p ;;; q" := (bind p (fun _ => q))
  (at level 61, right associativity) : prog_scope.
Local Open Scope prog_scope.

(** [await c]: a rejected promise is rethrown. *)
Definition await (c : call) : prog value :=
  Await c (fun o =>
    match o with
    | Fulfilled v => Ret v
    | Rejected e => Throw e
    end).

(** [try { p } catch (e) { h e }] *)
Fixpoint try_catch {A : Type} (p : prog A) (h : value -> prog A) : prog A :=
  match p with
  | Ret a => Ret a
  | Throw e => h e
  | Await c k => Await c (fun o => try_catch (k o) h)
  end.

(** The check that opens every destructuring pattern [{ ... } = v]. *)
Definition require_object_coercible (v : value) : prog unit :=
  if nullish v then Throw TypeError else Ret tt.

(** [v.k] *)
Definition member (v : value) (k : string) : prog value :=
  if nullish v then Throw TypeError else Ret (get_prop v k).

(** [v?.k] *)
Definition optional_member (v : value) (k : string) : value :=
  if nullish v then VUndefined else get_prop v k.

(** ** The authorization gate *)

(** How a middleware ends: it has sent a response, or it has called
    [next()] on the request it leaves behind. *)
Inductive gate : Type :=
| Sent (r : response)
| Next (req : request).

(** The [try] block of [requireAdmin]. *)
Definition requireAdmin_try (req : request) : prog gate :=
  let authHeader :=
    match req_authorization req with
    | Some h => h                (* h || '' is h, also when h is '' *)
    | None => ""
    end in
  let token :=
    if startsWith authHeader "Bearer " then VStr (slice 7 authHeader)
    else VNull in
  if negb (truthy token) then
    Ret (Sent (status_json 401 (error_body (VStr "Missing bearer token"))))
  else
    r <- await (auth_getUser token) ;;
    (* const { data: { user }, error } = r *)
    require_object_coercible r ;;;
    let data := get_prop r "data" in
    require_object_coercible data ;;;
    let user := get_prop data "user" in
    let error := get_prop r "error" in
    if truthy error || negb (truthy user) then
      Ret (Sent (status_json 401 (error_body (VStr "Invalid token"))))
    else
      um <- member user "user_metadata" ;;
      let role := optional_member um "role" in
      if negb (strict_eq_string role "admin") then
        Ret (Sent (status_json 403 (error_body (VStr "Admin only"))))
      else
        Ret (Next (set_user req user)).

Definition requireAdmin (req : request) : prog gate :=
  try_catch (requireAdmin_try req)
    (fun _ =>
       Ret (Sent (status_json 500 (error_body (VStr "Auth verification failed"))))).

(** ** The relay handlers *)

Definition default_user_metadata : value := VObj [("role", VStr "user")].

(** The argument of [adminClient.auth.admin.createUser]. *)
Definition createUser_attrs (email password user_metadata : value) : value :=
  VObj [("email", email);
        ("password", password);
        ("user_metadata", js_or user_metadata default_user_metadata);
        ("email_confirm", VBool true)].

Definition create_user (req : request) : prog response :=
  let b := js_or (req_body req) (VObj []) in
  require_object_coercible b ;;;
  let email := get_prop b "email" in
  let password := get_prop b "password" in
  let user_metadata := get_prop b "user_metadata" in
  if negb (truthy email) || negb (truthy password) then
    Ret (status_json 400 (error_body (VStr "email and password required")))
  else
    r <- await (auth_admin_createUser
                  (createUser_attrs email password user_metadata)) ;;
    require_object_coercible r ;;;
    let data := get_prop r "data" in
    let error := get_prop r "error" in
    if truthy error then
      msg <- member error "message" ;;
      Ret (status_json 400 (error_body msg))
    else
      u <- member data "user" ;;
      Ret (json (VObj [("user", u)])).

Definition list_users (_req : request) : prog response :=
  r <- await auth_admin_listUsers ;;
  require_object_coercible r ;;;
  let data := get_prop r "data" in
  let error := get_prop r "error" in
  if truthy error then
    msg <- member error "message" ;;
    Ret (status_json 400 (error_body msg))
  else
    us <- member data "users" ;;
    Ret (json (VObj [("users", us)])).

Definition delete_user (req : request) : prog response :=
  let b := js_or (req_body req) (VObj []) in
  require_object_coercible b ;;;
  let id := get_prop b "id" in
  if negb (truthy id) then
    Ret (status_json 400 (error_body (VStr "id required")))
  else
    r <- await (auth_admin_deleteUser id) ;;
    require_object_coercible r ;;;
    let error := get_prop r "error" in
    if truthy error then
      msg <- member error "message" ;;
      Ret (status_json 400 (error_body msg))
    else
      Ret (json (VObj [("success", VBool true)])).

Definition health (_req : request) : prog response :=
  Ret (json (VObj [("ok", VBool true)])).

(** ** Routing *)

Inductive endpoint : Type :=
| Health
| CreateUser
| ListUsers
| DeleteUser.

(** The behind-the-gate handler of an endpoint. *)
Definition handler (ep : endpoint) : request -> prog response :=
  match ep with
  | Health => health
  | CreateUser => create_user
  | ListUsers => list_users
  | DeleteUser => delete_user
  end.

(** [app.METHOD(path, requireAdmin, h)]: [h] runs only if the gate called
    [next()]. *)
Definition gated (h : request -> prog response) (req : request) : prog response :=
  g <- requireAdmin req ;;
  match g with
  | Sent r => Ret r
  | Next req' => h req'
  end.

Definition is_gated (ep : endpoint) : bool :=
  match ep with
  | Health => false
  | _ => true
  end.

Definition serve (ep : endpoint) (req : request) : prog response :=
  if is_gated ep then gated (handler ep) req else handler ep req.

(** The four registrations of the file, in order, on the method and the
    path as written there.  Express also accepts other spellings of a
    registered path (letter case, a trailing slash); they select the same
    endpoints, and the statements below hold for every endpoint and
    request, whatever way the request was routed. *)
Definition route (req : request) : option endpoint :=
  let m := req_method req in
  let p := req_path req in
  if String.eqb m "GET" && String.eqb p "/admin/health" then Some Health
  else if String.eqb m "POST" && String.eqb p "/admin/create-user" then Some CreateUser
  else if String.eqb m "GET" && String.eqb p "/admin/list-users" then Some ListUsers
  else if String.eqb m "POST" && String.eqb p "/admin/delete-user" then Some DeleteUser
  else None.

(** The application; [None] when no route of the file matches and the
    framework's own fallback answers. *)
Definition app (req : request) : option (prog response) :=
  match route req with
  | Some ep => Some (serve ep req)
  | None => None
  end.

(** ** Running a program against a provider *)

Inductive result (A : Type) : Type :=
| Returned (a : A)
| Thrown (e : value).

Arguments Returned {A} a.
Arguments Thrown {A} e.

(** One run: how it ended, the provider calls it made in order, and the
    provider's state afterwards. *)
Record outcome (A S : Type) : Type := mkOutcome {
  ended : result A;
  calls : list call;
  provider_after : S
}.

Arguments mkOutcome {A S} _ _ _.
Arguments ended {A S} _.
Arguments calls {A S} _.
Arguments provider_after {A S} _.

Section Provider.

(** The provider: any state, any answers. *)
Variable PState : Type.
Variable provider : PState -> call -> settled * PState.

Fixpoint run {A : Type} (p : prog A) (s : PState) : outcome A PState :=
  match p with
  | Ret a => mkOutcome (Returned a) [] s
  | Throw e => mkOutcome (Thrown e) [] s
  | Await c k =>
      let (o, s') := provider s c in
      let r := run (k o) s' in
      mkOutcome (ended r) (c :: calls r) (provider_after r)
  end.

End Provider.

Arguments run {PState} provider {A} p s.

(** ** A sample provider

    A small deterministic provider used to exercise the theorems on
    concrete requests.  Its state counts the calls it has answered. *)

Definition sdk_response (data error : value) : value :=
  VObj [("data", data); ("error", error)].

Definition auth_error (msg : string) : value :=
  VObj [("name", VStr "AuthApiError"); ("message", VStr msg)].

Definition sample_user (id role : string) : value :=
  VObj [("id", VStr id); ("user_metadata", VObj [("role", VStr role)])].

Definition sample_answer (c : call) : settled :=
  match c with
  | auth_getUser (VStr "admin-jwt") =>
      Fulfilled (sdk_response (VObj [("user", sample_user "u1" "admin")]) VNull)
  | auth_getUser (VStr "user-jwt") =>
      Fulfilled (sdk_response (VObj [("user", sample_user "u2" "user")]) VNull)
  | auth_getUser (VStr "bare-jwt") =>
      Fulfilled (sdk_response (VObj [("user", VObj [("id", VStr "u3")])]) VNull)
  | auth_getUser (VStr "down") =>
      Rejected (VObj [("name", VStr "FetchError")])
  | auth_getUser _ =>
      Fulfilled (sdk_response (VObj [("user", VNull)]) (auth_error "invalid JWT"))
  | auth_admin_createUser attrs =>
      if strict_eq_string (get_prop attrs "email") "dup@b.com" then
        Fulfilled (sdk_response (VObj [("user", VNull)])
                                (auth_error "User already registered"))
      else
        Fulfilled (sdk_response (VObj [("user", attrs)]) VNull)
  | auth_admin_listUsers =>
      Fulfilled (sdk_response (VObj [("users", VArr [sample_user "u1" "admin"])]) VNull)
  | auth_admin_deleteUser id =>
      if strict_eq_string id "gone" then
        Fulfilled (sdk_response (VObj [("user", VNull)]) (auth_error "User not found"))
      else
        Fulfilled (sdk_response (VObj [("user", VObj [("id", id)])]) VNull)
  end.

Definition sample_provider (n : nat) (c : call) : settled * nat :=
  (sample_answer c, S n).

Definition sample_request (m p : string) (auth : option string) (b : value) : request :=
  mkRequest m p auth b VUndefined.

(** ** Vocabulary of the statements about the handlers *)

(** The common tail of the three handlers on a fulfilled provider answer
    [r] ([const { ..., error } = r; if (error) return res.status(400)...]):
    a TypeError if [r] cannot be destructured, a 400 carrying
    [r.error.message] if there is an [error], else [ok]. *)
Definition relayed (r : value) (ok : result response) : result response :=
  if nullish r then Thrown TypeError
  else if truthy (get_prop r "error") then
    Returned (status_json 400 (error_body (get_prop (get_prop r "error") "message")))
  else ok.


(** A create-user request that passes the input check: [email] and
    [password] are present and non-empty. *)
Definition valid_create_user (req : request) : Prop :=
  truthy (get_prop (req_body req) "email") = true /\
  truthy (get_prop (req_body req) "password") = true.

(** Against every provider, the handler makes exactly one call, the
    create-account operation, with [m] as the metadata next to the
    request's [email] and [password]. *)
Definition forwards_metadata (req : request) (m : value) : Prop :=
  forall (PState : Type) (provider : PState -> call -> settled * PState) (s : PState),
    calls (run provider (create_user req) s) =
    [auth_admin_createUser
       (VObj [("email", get_prop (req_body req) "email");
              ("password", get_prop (req_body req) "password");
              ("user_metadata", m);
              ("email_confirm", VBool true)])].

(** ** Vocabulary of the statements about whole requests *)

(** The header carries a token the gate will ask the provider about. *)
Definition usable_bearer (req : request) (h : string) : Prop :=
  req_authorization req = Some h /\
  startsWith h "Bearer " = true /\
  slice 7 h <> "".

(** The header is absent, has another scheme, or has nothing after
    ["Bearer "]. *)
Definition no_bearer (req : request) : Prop :=
  req_authorization req = None \/
  exists h, req_authorization req = Some h /\
            (startsWith h "Bearer " = false \/ slice 7 h = "").

(** The role the gate reads off a provider answer:
    [r.data.user.user_metadata?.role]. *)
Definition answered_role (r : value) : value :=
  optional_member (get_prop (get_prop (get_prop r "data") "user") "user_metadata") "role".

(** A provider answer that names an administrator: no [error], and the
    role of its user is the string ['admin']. *)
Definition resolves_admin (r : value) : Prop :=
  truthy (get_prop r "error") = false /\ answered_role r = VStr "admin".

(** The operations of [adminClient.auth.admin], which act with the
    service-role key. *)
Definition is_privileged (c : call) : bool :=
  match c with
  | auth_getUser _ => false
  | auth_admin_createUser _ => true
  | auth_admin_listUsers => true
  | auth_admin_deleteUser _ => true
  end.

(** ** Two more sample providers *)

(** Tokens are resolved as by [sample_provider], but every privileged
    operation ends in a rejected promise. *)
Definition outage_provider (n : nat) (c : call) : settled * nat :=
  (if is_privileged c then Rejected (VObj [("name", VStr "FetchError")])
   else sample_answer c,
   S n).

(** Tokens are resolved as by [sample_provider], but every privileged
    operation is fulfilled with [{data: null, error: null}]. *)
Definition dataless_provider (n : nat) (c : call) : settled * nat :=
  (if is_privileged c then Fulfilled (sdk_response VNull VNull)
   else sample_answer c,
   S n).

(** * Properties *)

(** ** Running programs *)

Section RunFacts.

Context {PState : Type} (provider : PState -> call -> settled * PState).

(** A sequence runs its first part, then the rest from where the
    provider was left; a throw in the first part ends the run. *)
Lemma run_bind {A B : Type} (p : prog A) (f : A -> prog B) (s : PState) :
  run provider (bind p f) s =
  match ended (run provider p s) with
  | Returned a =>
      let r := run provider (f a) (provider_after (run provider p s)) in
      mkOutcome (ended r) (calls (run provider p s) ++ calls r) (provider_after r)
  | Thrown e =>
      mkOutcome (Thrown e) (calls (run provider p s))
                (provider_after (run provider p s))
  end.
Proof.
  revert s. induction p as [a | e | c k IH]; intros s; simpl.
  - destruct (run provider (f a) s); reflexivity.
  - reflexivity.
  - destruct (provider s c) as [o s']. rewrite IH. simpl.
    destruct (ended (run provider (k o) s')); reflexivity.
Qed.

(** A [try] block whose handler makes no provider call: the calls are
    those of the block, and a throw is replaced by the handler's
    result. *)
Lemma run_try_catch_ret {A : Type} (p : prog A) (h : value -> A) (s : PState) :
  run provider (try_catch p (fun e => Ret (h e))) s =
  mkOutcome
    match ended (run provider p s) with
    | Returned a => Returned a
    | Thrown e => Returned (h e)
    end
    (calls (run provider p s))
    (provider_after (run provider p s)).
Proof.
  revert s. induction p as [a | e | c k IH]; intros s; simpl; try reflexivity.
  destruct (provider s c) as [o s']. rewrite IH. reflexivity.
Qed.

(** Awaiting a call, then going on. *)
Lemma run_await {B : Type} (c : call) (f : value -> prog B) (s : PState) :
  run provider (bind (await c) f) s =
  match provider s c with
  | (Fulfilled v, s') =>
      let r := run provider (f v) s' in
      mkOutcome (ended r) (c :: calls r) (provider_after r)
  | (Rejected e, s') => mkOutcome (Thrown e) [c] s'
  end.
Proof.
  simpl. destruct (provider s c) as [[v | e] s']; reflexivity.
Qed.

End RunFacts.

(** ** Values *)

Lemma truthy_not_nullish (v : value) : truthy v = true -> nullish v = false.
Proof. destruct v; simpl; congruence. Qed.

Lemma nullish_get_prop (v : value) (k : string) :
  nullish v = true -> get_prop v k = VUndefined.
Proof. destruct v; simpl; congruence. Qed.

Lemma get_prop_not_nullish (v : value) (k : string) :
  nullish (get_prop v k) = false -> nullish v = false.
Proof. destruct v; simpl; congruence. Qed.

(** Only objects have the fields the program reads. *)
Lemma falsy_get_prop (v : value) (k : string) :
  truthy v = false -> get_prop v k = VUndefined.
Proof. destruct v; simpl; congruence. Qed.

(** [req.body || {}] reads like [req.body] on every field. *)
Lemma get_prop_body_or_empty (b : value) (k : string) :
  get_prop (js_or b (VObj [])) k = get_prop b k.
Proof.
  unfold js_or. destruct (truthy b) eqn:Hb; [reflexivity|].
  rewrite (falsy_get_prop b k Hb). reflexivity.
Qed.

Lemma body_or_empty_coercible (b : value) :
  nullish (js_or b (VObj [])) = false.
Proof.
  unfold js_or. destruct (truthy b) eqn:Hb; [|reflexivity].
  apply truthy_not_nullish; assumption.
Qed.

(** Every mapping is truthy, the empty one included. *)
Lemma truthy_object (fields : list (string * value)) : truthy (VObj fields) = true.
Proof. reflexivity. Qed.

Lemma nonempty_token_truthy (t : string) : t <> "" -> truthy (VStr t) = true.
Proof.
  intros Ht. simpl. apply negb_true_iff. apply String.eqb_neq. exact Ht.
Qed.

(** ** The gate *)

Section GateFacts.

Context {PState : Type} (provider : PState -> call -> settled * PState).

(** The handler of a gated route runs from the state the gate left, and
    only when the gate called [next()]. *)
Lemma run_gated (h : request -> prog response) (req : request) (s : PState) :
  run provider (gated h req) s =
  let g := run provider (requireAdmin req) s in
  match ended g with
  | Returned (Sent r) => mkOutcome (Returned r) (calls g) (provider_after g)
  | Returned (Next req') =>
      let r := run provider (h req') (provider_after g) in
      mkOutcome (ended r) (calls g ++ calls r) (provider_after r)
  | Thrown e => mkOutcome (Thrown e) (calls g) (provider_after g)
  end.
Proof.
  unfold gated. rewrite run_bind.
  destruct (ended (run provider (requireAdmin req) s)) as [[r | req'] | e];
    simpl; try reflexivity.
  rewrite app_nil_r. reflexivity.
Qed.

(** Without a usable bearer token the [try] block answers at once. *)
Lemma requireAdmin_try_no_token (req : request) :
  (req_authorization req = None \/
   exists h, req_authorization req = Some h /\
             (startsWith h "Bearer " = false \/ slice 7 h = "")) ->
  requireAdmin_try req =
  Ret (Sent (status_json 401 (error_body (VStr "Missing bearer token")))).
Proof.
  unfold requireAdmin_try.
  intros [Hnone | [h [Hsome [Hpre | Hempty]]]].
  - rewrite Hnone. reflexivity.
  - rewrite Hsome, Hpre. reflexivity.
  - rewrite Hsome. destruct (startsWith h "Bearer "); [|reflexivity].
    rewrite Hempty. reflexivity.
Qed.

(** With a bearer token the [try] block starts by asking the provider,
    and a rejected promise is thrown out of the block. *)
Lemma requireAdmin_try_rejected (req : request) (h : string) (s s' : PState) (e : value) :
  req_authorization req = Some h ->
  startsWith h "Bearer " = true ->
  slice 7 h <> "" ->
  provider s (auth_getUser (VStr (slice 7 h))) = (Rejected e, s') ->
  run provider (requireAdmin_try req) s =
  mkOutcome (Thrown e) [auth_getUser (VStr (slice 7 h))] s'.
Proof.
  intros Hh Hpre Htok Hp. unfold requireAdmin_try.
  rewrite Hh, Hpre, (nonempty_token_truthy _ Htok). cbn [negb].
  rewrite run_await, Hp. reflexivity.
Qed.

(** The verdict on a fulfilled answer [r]: what the rest of the [try]
    block does once the provider has answered. *)
Lemma requireAdmin_try_fulfilled (req : request) (h : string) (s s' : PState) (r : value) :
  req_authorization req = Some h ->
  startsWith h "Bearer " = true ->
  slice 7 h <> "" ->
  provider s (auth_getUser (VStr (slice 7 h))) = (Fulfilled r, s') ->
  run provider (requireAdmin_try req) s =
  mkOutcome
    (if nullish r || nullish (get_prop r "data") then Thrown TypeError
     else
       let user := get_prop (get_prop r "data") "user" in
       if truthy (get_prop r "error") || negb (truthy user) then
         Returned (Sent (status_json 401 (error_body (VStr "Invalid token"))))
       else if strict_eq_string
                 (optional_member (get_prop user "user_metadata") "role") "admin"
       then Returned (Next (set_user req user))
       else Returned (Sent (status_json 403 (error_body (VStr "Admin only")))))
    [auth_getUser (VStr (slice 7 h))] s'.
Proof.
  intros Hh Hpre Htok Hp. unfold requireAdmin_try.
  rewrite Hh, Hpre, (nonempty_token_truthy _ Htok). cbn [negb].
  rewrite run_await, Hp. cbv zeta.
  unfold require_object_coercible, member.
  destruct (nullish r) eqn:Hr; [reflexivity|]. cbn [bind orb].
  destruct (nullish (get_prop r "data")) eqn:Hd; [reflexivity|]. cbn [bind].
  destruct (truthy (get_prop r "error")) eqn:He; [reflexivity|]. cbn [orb].
  destruct (truthy (get_prop (get_prop r "data") "user")) eqn:Hu; [|reflexivity].
  cbn [negb]. rewrite (truthy_not_nullish _ Hu). cbn [bind].
  destruct (strict_eq_string _ "admin"); reflexivity.
Qed.

End GateFacts.

(** ** Claims about the gate *)

(** C1.  A request with a bearer token that the provider resolves to an
    identity (no error, a user) whose [user_metadata.role] is not exactly
    ["admin"] is answered 403 with the body [{error: 'Admin only'}]: the
    gate sends the response instead of calling [next()], and on every
    gated endpoint the only provider call of the whole request is the
    token resolution, so the operation handler has not run. *)
Theorem gate_forbids_non_admin
    (PState : Type) (provider : PState -> call -> settled * PState)
    (s s' : PState) (ep : endpoint) (req : request) (h : string) (r user : value) :
  is_gated ep = true ->
  req_authorization req = Some h ->
  startsWith h "Bearer " = true ->
  slice 7 h <> "" ->
  provider s (auth_getUser (VStr (slice 7 h))) = (Fulfilled r, s') ->
  truthy (get_prop r "error") = false ->
  get_prop (get_prop r "data") "user" = user ->
  truthy user = true ->
  strict_eq_string (optional_member (get_prop user "user_metadata") "role") "admin" = false ->
  run provider (requireAdmin req) s =
    mkOutcome (Returned (Sent (status_json 403 (error_body (VStr "Admin only")))))
              [auth_getUser (VStr (slice 7 h))] s'
  /\ run provider (serve ep req) s =
    mkOutcome (Returned (status_json 403 (error_body (VStr "Admin only"))))
              [auth_getUser (VStr (slice 7 h))] s'.
Proof.
  intros Hep Hh Hpre Htok Hp He Hu Htu Hrole.
  assert (Hgate : run provider (requireAdmin req) s =
    mkOutcome (Returned (Sent (status_json 403 (error_body (VStr "Admin only")))))
              [auth_getUser (VStr (slice 7 h))] s').
  { unfold requireAdmin. rewrite run_try_catch_ret.
    rewrite (requireAdmin_try_fulfilled provider req h s s' r Hh Hpre Htok Hp).
    cbn [ended calls provider_after].
    assert (Hd : nullish (get_prop r "data") = false).
    { destruct (nullish (get_prop r "data")) eqn:Hd; [|reflexivity].
      rewrite (nullish_get_prop _ "user" Hd) in Hu. subst user. discriminate. }
    rewrite (get_prop_not_nullish _ _ Hd), Hd. cbn [orb]. cbv zeta.
    rewrite Hu, He, Htu, Hrole. reflexivity. }
  split; [exact Hgate|].
  unfold serve. rewrite Hep, run_gated, Hgate. reflexivity.
Qed.

Lemma gate_forbids_non_admin_witness :
  let req := sample_request "POST" "/admin/delete-user" (Some "Bearer user-jwt")
                            (VObj [("id", VStr "u1")]) in
  run sample_provider (requireAdmin req) 0 =
    mkOutcome (Returned (Sent (status_json 403 (error_body (VStr "Admin only")))))
              [auth_getUser (VStr "user-jwt")] 1
  /\ run sample_provider (serve DeleteUser req) 0 =
    mkOutcome (Returned (status_json 403 (error_body (VStr "Admin only"))))
              [auth_getUser (VStr "user-jwt")] 1.
Proof.
  intros req.
  apply (gate_forbids_non_admin nat sample_provider 0 1 DeleteUser req
           "Bearer user-jwt"
           (sdk_response (VObj [("user", sample_user "u2" "user")]) VNull)
           (sample_user "u2" "user")).
  - reflexivity.
  - reflexivity.
  - reflexivity.
  - discriminate.
  - reflexivity.
  - reflexivity.
  - reflexivity.
  - reflexivity.
  - reflexivity.
Defined.

(** C2.  On every gated endpoint, whatever the method, path and body of
    the request, a missing [Authorization] header or one that does not
    start with ["Bearer "] is answered 401 with the body
    [{error: 'Missing bearer token'}], and the provider is not called. *)
Theorem gate_rejects_missing_bearer
    (PState : Type) (provider : PState -> call -> settled * PState)
    (s : PState) (ep : endpoint) (req : request) :
  is_gated ep = true ->
  (req_authorization req = None \/
   exists h, req_authorization req = Some h /\ startsWith h "Bearer " = false) ->
  run provider (requireAdmin req) s =
    mkOutcome (Returned (Sent (status_json 401 (error_body (VStr "Missing bearer token")))))
              [] s
  /\ run provider (serve ep req) s =
    mkOutcome (Returned (status_json 401 (error_body (VStr "Missing bearer token"))))
              [] s.
Proof.
  intros Hep Hhdr.
  assert (Hgate : run provider (requireAdmin req) s =
    mkOutcome (Returned (Sent (status_json 401 (error_body (VStr "Missing bearer token")))))
              [] s).
  { unfold requireAdmin. rewrite requireAdmin_try_no_token; [reflexivity|].
    destruct Hhdr as [Hnone | [h [Hsome Hpre]]].
    - left; exact Hnone.
    - right; exists h; split; [exact Hsome | left; exact Hpre]. }
  split; [exact Hgate|].
  unfold serve. rewrite Hep, run_gated, Hgate. reflexivity.
Qed.

Lemma gate_rejects_missing_bearer_witness :
  let req := sample_request "PUT" "/anything" (Some "Basic admin-jwt")
                            (VObj [("email", VStr "a@b.com"); ("password", VStr "x")]) in
  run sample_provider (requireAdmin req) 0 =
    mkOutcome (Returned (Sent (status_json 401 (error_body (VStr "Missing bearer token")))))
              [] 0
  /\ run sample_provider (serve CreateUser req) 0 =
    mkOutcome (Returned (status_json 401 (error_body (VStr "Missing bearer token"))))
              [] 0.
Proof.
  intros req.
  apply (gate_rejects_missing_bearer nat sample_provider 0 CreateUser req).
  - reflexivity.
  - right. exists "Basic admin-jwt". split; reflexivity.
Defined.

(** C3.  A request with a bearer token for which the provider answers
    [{data: {user}, error}] with an [error], or with no [user], is
    answered 401 with the body [{error: 'Invalid token'}]. *)
Theorem gate_rejects_unresolved_token
    (PState : Type) (provider : PState -> call -> settled * PState)
    (s s' : PState) (ep : endpoint) (req : request) (h : string) (r : value) :
  is_gated ep = true ->
  req_authorization req = Some h ->
  startsWith h "Bearer " = true ->
  slice 7 h <> "" ->
  provider s (auth_getUser (VStr (slice 7 h))) = (Fulfilled r, s') ->
  nullish (get_prop r "data") = false ->
  (truthy (get_prop r "error") = true \/
   truthy (get_prop (get_prop r "data") "user") = false) ->
  run provider (requireAdmin req) s =
    mkOutcome (Returned (Sent (status_json 401 (error_body (VStr "Invalid token")))))
              [auth_getUser (VStr (slice 7 h))] s'
  /\ run provider (serve ep req) s =
    mkOutcome (Returned (status_json 401 (error_body (VStr "Invalid token"))))
              [auth_getUser (VStr (slice 7 h))] s'.
Proof.
  intros Hep Hh Hpre Htok Hp Hd Hbad.
  assert (Hgate : run provider (requireAdmin req) s =
    mkOutcome (Returned (Sent (status_json 401 (error_body (VStr "Invalid token")))))
              [auth_getUser (VStr (slice 7 h))] s').
  { unfold requireAdmin. rewrite run_try_catch_ret.
    rewrite (requireAdmin_try_fulfilled provider req h s s' r Hh Hpre Htok Hp).
    cbn [ended calls provider_after].
    rewrite (get_prop_not_nullish _ _ Hd), Hd. cbn [orb]. cbv zeta.
    destruct Hbad as [He | Hu].
    - rewrite He. reflexivity.
    - rewrite Hu. rewrite orb_true_r. reflexivity. }
  split; [exact Hgate|].
  unfold serve. rewrite Hep, run_gated, Hgate. reflexivity.
Qed.

Lemma gate_rejects_unresolved_token_witness :
  let req := sample_request "GET" "/admin/list-users" (Some "Bearer expired-jwt")
                            VUndefined in
  run sample_provider (requireAdmin req) 0 =
    mkOutcome (Returned (Sent (status_json 401 (error_body (VStr "Invalid token")))))
              [auth_getUser (VStr "expired-jwt")] 1
  /\ run sample_provider (serve ListUsers req) 0 =
    mkOutcome (Returned (status_json 401 (error_body (VStr "Invalid token"))))
              [auth_getUser (VStr "expired-jwt")] 1.
Proof.
  intros req.
  apply (gate_rejects_unresolved_token nat sample_provider 0 1 ListUsers req
           "Bearer expired-jwt"
           (sdk_response (VObj [("user", VNull)]) (auth_error "invalid JWT"))).
  - reflexivity.
  - reflexivity.
  - reflexivity.
  - discriminate.
  - reflexivity.
  - reflexivity.
  - left. reflexivity.
Defined.

(** C4.  Whatever is thrown inside the [try] block of the gate (a rejected
    token resolution, a TypeError while taking the answer apart or while
    reading the role) is caught: the gate answers 500 with the generic body
    [{error: 'Auth verification failed'}], which does not carry the
    exception; the gate itself never ends by throwing; and 500 is neither
    the 401 nor the 403 of the other rejections. *)
Theorem gate_maps_exceptions_to_500
    (PState : Type) (provider : PState -> call -> settled * PState)
    (s : PState) (req : request) (e : value) :
  ended (run provider (requireAdmin_try req) s) = Thrown e ->
  run provider (requireAdmin req) s =
    mkOutcome
      (Returned (Sent (status_json 500 (error_body (VStr "Auth verification failed")))))
      (calls (run provider (requireAdmin_try req) s))
      (provider_after (run provider (requireAdmin_try req) s))
  /\ (forall (s0 : PState) (req0 : request) (e0 : value),
        ended (run provider (requireAdmin req0) s0) <> Thrown e0)
  /\ res_status (status_json 500 (error_body (VStr "Auth verification failed")))
       <> res_status (status_json 401 (error_body (VStr "Missing bearer token")))
  /\ res_status (status_json 500 (error_body (VStr "Auth verification failed")))
       <> res_status (status_json 401 (error_body (VStr "Invalid token")))
  /\ res_status (status_json 500 (error_body (VStr "Auth verification failed")))
       <> res_status (status_json 403 (error_body (VStr "Admin only"))).
Proof.
  intros Hthrown. split; [|split; [|repeat split; simpl; lia]].
  - unfold requireAdmin. rewrite run_try_catch_ret, Hthrown. reflexivity.
  - intros s0 req0 e0. unfold requireAdmin. rewrite run_try_catch_ret.
    cbn [ended].
    destruct (ended (run provider (requireAdmin_try req0) s0)); discriminate.
Qed.

Lemma gate_maps_exceptions_to_500_witness :
  ended (run sample_provider
             (requireAdmin_try
                (sample_request "GET" "/admin/list-users" (Some "Bearer down") VUndefined))
             0)
    = Thrown (VObj [("name", VStr "FetchError")])
  /\ run sample_provider
         (requireAdmin
            (sample_request "GET" "/admin/list-users" (Some "Bearer down") VUndefined))
         0
     = mkOutcome
         (Returned (Sent (status_json 500 (error_body (VStr "Auth verification failed")))))
         [auth_getUser (VStr "down")] 1.
Proof.
  split; [reflexivity|].
  apply (gate_maps_exceptions_to_500 nat sample_provider 0
           (sample_request "GET" "/admin/list-users" (Some "Bearer down") VUndefined)
           (VObj [("name", VStr "FetchError")])).
  reflexivity.
Defined.

Section GateThrows.

Context {PState : Type} (provider : PState -> call -> settled * PState).

(** The two ways the [try] block can throw, both in token resolution: the
    promise is rejected, or the answer cannot be destructured.  Reading
    the role of a resolved user never throws. *)
Lemma requireAdmin_try_thrown (req : request) (s : PState) (e : value) :
  ended (run provider (requireAdmin_try req) s) = Thrown e ->
  exists h s',
    req_authorization req = Some h /\
    startsWith h "Bearer " = true /\
    slice 7 h <> "" /\
    (provider s (auth_getUser (VStr (slice 7 h))) = (Rejected e, s') \/
     exists r,
       provider s (auth_getUser (VStr (slice 7 h))) = (Fulfilled r, s') /\
       (nullish r || nullish (get_prop r "data")) = true /\ e = TypeError).
Proof.
  intros Hthrown.
  destruct (req_authorization req) as [h|] eqn:Hh.
  2: { rewrite requireAdmin_try_no_token in Hthrown by (left; exact Hh).
       discriminate. }
  destruct (startsWith h "Bearer ") eqn:Hpre.
  2: { rewrite requireAdmin_try_no_token in Hthrown
         by (right; exists h; split; [exact Hh | left; exact Hpre]).
       discriminate. }
  destruct (String.eqb (slice 7 h) "") eqn:Htok.
  { apply String.eqb_eq in Htok.
    rewrite requireAdmin_try_no_token in Hthrown
      by (right; exists h; split; [exact Hh | right; exact Htok]).
    discriminate. }
  apply String.eqb_neq in Htok.
  destruct (provider s (auth_getUser (VStr (slice 7 h)))) as [[r | e'] s'] eqn:Hp.
  - rewrite (requireAdmin_try_fulfilled provider req h s s' r Hh Hpre Htok Hp)
      in Hthrown.
    cbn [ended] in Hthrown. exists h, s'. repeat split; try assumption.
    right. exists r. split; [exact Hp|].
    destruct (nullish r || nullish (get_prop r "data")).
    + split; [reflexivity | congruence].
    + cbv zeta in Hthrown.
      destruct (truthy (get_prop r "error") ||
                negb (truthy (get_prop (get_prop r "data") "user")));
        [discriminate|].
      destruct (strict_eq_string _ "admin"); discriminate.
  - rewrite (requireAdmin_try_rejected provider req h s s' e' Hh Hpre Htok Hp)
      in Hthrown.
    cbn [ended] in Hthrown. exists h, s'. repeat split; try assumption.
    left. rewrite Hp. congruence.
Qed.

(** The permitted case: an identity whose role is exactly ["admin"] is
    attached to the request and the handler runs next. *)
Lemma gate_admits_admin (req : request) (h : string) (s s' : PState) (r : value) :
  req_authorization req = Some h ->
  startsWith h "Bearer " = true ->
  slice 7 h <> "" ->
  provider s (auth_getUser (VStr (slice 7 h))) = (Fulfilled r, s') ->
  truthy (get_prop r "error") = false ->
  strict_eq_string
    (optional_member
       (get_prop (get_prop (get_prop r "data") "user") "user_metadata") "role")
    "admin" = true ->
  run provider (requireAdmin req) s =
  mkOutcome (Returned (Next (set_user req (get_prop (get_prop r "data") "user"))))
            [auth_getUser (VStr (slice 7 h))] s'.
Proof.
  intros Hh Hpre Htok Hp He Hrole.
  unfold requireAdmin. rewrite run_try_catch_ret.
  rewrite (requireAdmin_try_fulfilled provider req h s s' r Hh Hpre Htok Hp).
  cbn [ended calls provider_after].
  destruct (get_prop (get_prop r "data") "user") as [| | | | | |ufields] eqn:Hu;
    try discriminate Hrole.
  assert (Hd : nullish (get_prop r "data") = false).
  { destruct (nullish (get_prop r "data")) eqn:Hd; [|reflexivity].
    rewrite (nullish_get_prop _ "user" Hd) in Hu. discriminate. }
  rewrite (get_prop_not_nullish _ _ Hd), Hd, He, Hrole. reflexivity.
Qed.

End GateThrows.

(** ** The relay handlers *)

Section HandlerFacts.

Context {PState : Type} (provider : PState -> call -> settled * PState).

Lemma create_user_invalid (req : request) :
  truthy (get_prop (req_body req) "email") = false \/
  truthy (get_prop (req_body req) "password") = false ->
  create_user req =
  Ret (status_json 400 (error_body (VStr "email and password required"))).
Proof.
  intros Hmiss. unfold create_user, require_object_coercible. cbv zeta.
  rewrite body_or_empty_coercible. cbn [bind].
  rewrite !get_prop_body_or_empty.
  destruct Hmiss as [H | H]; rewrite H; [|rewrite orb_true_r]; reflexivity.
Qed.

Lemma run_create_user_valid (req : request) (s : PState) :
  valid_create_user req ->
  run provider (create_user req) s =
  let c := auth_admin_createUser
             (createUser_attrs (get_prop (req_body req) "email")
                               (get_prop (req_body req) "password")
                               (get_prop (req_body req) "user_metadata")) in
  match provider s c with
  | (Fulfilled r, s') =>
      mkOutcome
        (relayed r
           (if nullish (get_prop r "data") then Thrown TypeError
            else Returned (json (VObj [("user", get_prop (get_prop r "data") "user")]))))
        [c] s'
  | (Rejected e, s') => mkOutcome (Thrown e) [c] s'
  end.
Proof.
  intros [He Hp]. unfold create_user, require_object_coercible. cbv zeta.
  rewrite body_or_empty_coercible. cbn [bind].
  rewrite !get_prop_body_or_empty, He, Hp. cbn [negb orb].
  rewrite run_await.
  destruct (provider s _) as [[r | e] s']; [|reflexivity].
  unfold relayed, member.
  destruct (nullish r); [reflexivity|]. cbn [bind].
  destruct (truthy (get_prop r "error")) eqn:Herr.
  - rewrite (truthy_not_nullish _ Herr). reflexivity.
  - destruct (nullish (get_prop r "data")); reflexivity.
Qed.

Lemma run_list_users (req : request) (s : PState) :
  run provider (list_users req) s =
  match provider s auth_admin_listUsers with
  | (Fulfilled r, s') =>
      mkOutcome
        (relayed r
           (if nullish (get_prop r "data") then Thrown TypeError
            else Returned (json (VObj [("users", get_prop (get_prop r "data") "users")]))))
        [auth_admin_listUsers] s'
  | (Rejected e, s') => mkOutcome (Thrown e) [auth_admin_listUsers] s'
  end.
Proof.
  unfold list_users. rewrite run_await.
  destruct (provider s _) as [[r | e] s']; [|reflexivity].
  unfold relayed, member, require_object_coercible.
  destruct (nullish r); [reflexivity|]. cbn [bind]. cbv zeta.
  destruct (truthy (get_prop r "error")) eqn:Herr.
  - rewrite (truthy_not_nullish _ Herr). reflexivity.
  - destruct (nullish (get_prop r "data")); reflexivity.
Qed.

Lemma delete_user_invalid (req : request) :
  truthy (get_prop (req_body req) "id") = false ->
  delete_user req = Ret (status_json 400 (error_body (VStr "id required"))).
Proof.
  intros Hmiss. unfold delete_user, require_object_coercible. cbv zeta.
  rewrite body_or_empty_coercible. cbn [bind].
  rewrite !get_prop_body_or_empty, Hmiss. reflexivity.
Qed.

Lemma run_delete_user_valid (req : request) (s : PState) :
  truthy (get_prop (req_body req) "id") = true ->
  run provider (delete_user req) s =
  let c := auth_admin_deleteUser (get_prop (req_body req) "id") in
  match provider s c with
  | (Fulfilled r, s') =>
      mkOutcome (relayed r (Returned (json (VObj [("success", VBool true)])))) [c] s'
  | (Rejected e, s') => mkOutcome (Thrown e) [c] s'
  end.
Proof.
  intros Hid. unfold delete_user, require_object_coercible. cbv zeta.
  rewrite body_or_empty_coercible. cbn [bind].
  rewrite !get_prop_body_or_empty, Hid. cbn [negb].
  rewrite run_await.
  destruct (provider s _) as [[r | e] s']; [|reflexivity].
  unfold relayed, member.
  destruct (nullish r); [reflexivity|]. cbn [bind].
  destruct (truthy (get_prop r "error")) eqn:Herr; [|reflexivity].
  rewrite (truthy_not_nullish _ Herr). reflexivity.
Qed.

End HandlerFacts.

(** ** Claims about create-user *)

(** C5.  A create-user request behind the gate whose body has no [email]
    or no [password] is answered 400 with the body
    [{error: 'email and password required'}], and the handler makes no
    provider call at all. *)
Theorem create_user_missing_field_is_400
    (PState : Type) (provider : PState -> call -> settled * PState)
    (s : PState) (req : request) :
  get_prop (req_body req) "email" = VUndefined \/
  get_prop (req_body req) "password" = VUndefined ->
  run provider (create_user req) s =
    mkOutcome (Returned (status_json 400 (error_body (VStr "email and password required"))))
              [] s.
Proof.
  intros Hmiss. rewrite create_user_invalid; [reflexivity|].
  destruct Hmiss as [H | H]; rewrite H; [left | right]; reflexivity.
Qed.

Lemma create_user_missing_field_is_400_witness :
  get_prop (VObj [("email", VStr "a@b.com")]) "password" = VUndefined
  /\ run sample_provider
         (create_user (sample_request "POST" "/admin/create-user"
                                      (Some "Bearer admin-jwt")
                                      (VObj [("email", VStr "a@b.com")])))
         1
     = mkOutcome
         (Returned (status_json 400 (error_body (VStr "email and password required"))))
         [] 1.
Proof.
  split; [reflexivity|].
  apply (create_user_missing_field_is_400 nat sample_provider 1
           (sample_request "POST" "/admin/create-user" (Some "Bearer admin-jwt")
                           (VObj [("email", VStr "a@b.com")]))).
  right. reflexivity.
Defined.

(** The same answer for every falsy [email] or [password] ([null], [0],
    the empty string, ...), not only for a missing one. *)
Lemma create_user_falsy_field_is_400
    (PState : Type) (provider : PState -> call -> settled * PState)
    (s : PState) (req : request) :
  truthy (get_prop (req_body req) "email") = false \/
  truthy (get_prop (req_body req) "password") = false ->
  run provider (create_user req) s =
    mkOutcome (Returned (status_json 400 (error_body (VStr "email and password required"))))
              [] s.
Proof.
  intros Hmiss. rewrite create_user_invalid by exact Hmiss. reflexivity.
Qed.

(** What a valid request forwards: [user_metadata || { role: 'user' }]. *)
Lemma create_user_forwards (req : request) :
  valid_create_user req ->
  forwards_metadata req
    (js_or (get_prop (req_body req) "user_metadata") default_user_metadata).
Proof.
  intros Hvalid PState provider s.
  rewrite (run_create_user_valid provider req s Hvalid). cbv zeta.
  destruct (provider s _) as [[r | e] s']; reflexivity.
Qed.

(** C6, as stated, fails: a supplied [user_metadata] is not always
    forwarded as given.  With [user_metadata: null] in a valid body the
    provider receives [{role: 'user'}]. *)
Lemma create_user_supplied_null_not_forwarded :
  ~ (forall (req : request) (fields : list (string * value)) (um : value),
       req_body req = VObj fields ->
       valid_create_user req ->
       own_field "user_metadata" fields = Some um ->
       forwards_metadata req um).
Proof.
  intros Hclaim.
  pose (fields := [("email", VStr "a@b.com"); ("password", VStr "x");
                   ("user_metadata", VNull)]).
  pose (req := sample_request "POST" "/admin/create-user" (Some "Bearer admin-jwt")
                              (VObj fields)).
  assert (Hfwd : forwards_metadata req VNull).
  { apply (Hclaim req fields VNull).
    - reflexivity.
    - split; reflexivity.
    - reflexivity. }
  specialize (Hfwd nat sample_provider 0). vm_compute in Hfwd. discriminate Hfwd.
Qed.

(** C6, amended.  For a valid create-user request: if [user_metadata] is
    omitted, the provider receives exactly [{role: 'user'}] as the
    metadata; if it is supplied with a truthy value, which every mapping
    is, the empty one included, the provider receives it as given.  In
    both cases the call carries the request's [email] and [password] and
    [email_confirm: true]. *)
Theorem create_user_metadata_default
    (req : request) :
  valid_create_user req ->
  (get_prop (req_body req) "user_metadata" = VUndefined ->
   forwards_metadata req (VObj [("role", VStr "user")]))
  /\ (truthy (get_prop (req_body req) "user_metadata") = true ->
      forwards_metadata req (get_prop (req_body req) "user_metadata"))
  /\ (forall m : list (string * value),
        get_prop (req_body req) "user_metadata" = VObj m ->
        forwards_metadata req (VObj m)).
Proof.
  intros Hvalid. pose proof (create_user_forwards req Hvalid) as Hfwd.
  unfold js_or in Hfwd. repeat split.
  - intros Hum. rewrite Hum in Hfwd. exact Hfwd.
  - intros Hum. rewrite Hum in Hfwd. exact Hfwd.
  - intros m Hum. rewrite Hum in Hfwd. exact Hfwd.
Qed.

Lemma create_user_metadata_default_witness :
  forwards_metadata
    (sample_request "POST" "/admin/create-user" (Some "Bearer admin-jwt")
                    (VObj [("email", VStr "a@b.com"); ("password", VStr "x")]))
    (VObj [("role", VStr "user")]).
Proof.
  refine (proj1 (create_user_metadata_default
                   (sample_request "POST" "/admin/create-user" (Some "Bearer admin-jwt")
                                   (VObj [("email", VStr "a@b.com"); ("password", VStr "x")]))
                   _) _).
  - split; reflexivity.
  - reflexivity.
Defined.

(** C10.  The default is what [||] makes it: for a valid create-user
    request, every falsy supplied [user_metadata] ([null], [false] and the
    empty string among them) is replaced by [{role: 'user'}], exactly as an
    omitted one is; and a supplied empty object is forwarded unchanged, so
    the metadata the provider receives then has no [role] field. *)
Theorem create_user_metadata_falsy_or_empty
    (req : request) :
  valid_create_user req ->
  (truthy (get_prop (req_body req) "user_metadata") = false ->
   forwards_metadata req (VObj [("role", VStr "user")]))
  /\ (get_prop (req_body req) "user_metadata" = VObj [] ->
      forwards_metadata req (VObj []) /\ get_prop (VObj []) "role" = VUndefined)
  /\ truthy VNull = false /\ truthy (VBool false) = false /\ truthy (VStr "") = false
  /\ truthy VUndefined = false.
Proof.
  intros Hvalid. pose proof (create_user_forwards req Hvalid) as Hfwd.
  unfold js_or in Hfwd.
  split; [|split; [|repeat split]].
  - intros Hum. rewrite Hum in Hfwd. exact Hfwd.
  - intros Hum. split; [|reflexivity]. rewrite Hum in Hfwd. exact Hfwd.
Qed.

Lemma create_user_metadata_falsy_or_empty_witness :
  forwards_metadata
    (sample_request "POST" "/admin/create-user" (Some "Bearer admin-jwt")
                    (VObj [("email", VStr "a@b.com"); ("password", VStr "x");
                           ("user_metadata", VBool false)]))
    (VObj [("role", VStr "user")])
  /\ forwards_metadata
       (sample_request "POST" "/admin/create-user" (Some "Bearer admin-jwt")
                       (VObj [("email", VStr "a@b.com"); ("password", VStr "x");
                              ("user_metadata", VObj [])]))
       (VObj []).
Proof.
  split.
  - refine (proj1 (create_user_metadata_falsy_or_empty
                     (sample_request "POST" "/admin/create-user" (Some "Bearer admin-jwt")
                        (VObj [("email", VStr "a@b.com"); ("password", VStr "x");
                               ("user_metadata", VBool false)]))
                     _) _).
    + split; reflexivity.
    + reflexivity.
  - refine (proj1 (proj1 (proj2 (create_user_metadata_falsy_or_empty
                     (sample_request "POST" "/admin/create-user" (Some "Bearer admin-jwt")
                        (VObj [("email", VStr "a@b.com"); ("password", VStr "x");
                               ("user_metadata", VObj [])]))
                     _)) _)).
    + split; reflexivity.
    + reflexivity.
Defined.

(** ** Claims about delete-user *)

(** C7.  A delete-user request behind the gate whose body has no [id] is
    answered 400 with the body [{error: 'id required'}] and no provider
    call; with an [id], when the provider's delete operation succeeds (it
    answers without an [error]), the handler answers 200 with
    [{success: true}] after that one call. *)
Theorem delete_user_requires_id
    (PState : Type) (provider : PState -> call -> settled * PState)
    (s : PState) (req : request) :
  (get_prop (req_body req) "id" = VUndefined ->
   run provider (delete_user req) s =
     mkOutcome (Returned (status_json 400 (error_body (VStr "id required")))) [] s)
  /\ (forall (r : value) (s' : PState),
        truthy (get_prop (req_body req) "id") = true ->
        provider s (auth_admin_deleteUser (get_prop (req_body req) "id"))
          = (Fulfilled r, s') ->
        nullish r = false ->
        truthy (get_prop r "error") = false ->
        run provider (delete_user req) s =
          mkOutcome (Returned (json (VObj [("success", VBool true)])))
                    [auth_admin_deleteUser (get_prop (req_body req) "id")] s').
Proof.
  split.
  - intros Hid. rewrite delete_user_invalid; [reflexivity|].
    rewrite Hid. reflexivity.
  - intros r s' Hid Hp Hr He.
    rewrite (run_delete_user_valid provider req s Hid). cbv zeta.
    rewrite Hp. unfold relayed. rewrite Hr, He. reflexivity.
Qed.

Lemma delete_user_requires_id_witness :
  run sample_provider
      (delete_user (sample_request "POST" "/admin/delete-user" (Some "Bearer admin-jwt")
                                   (VObj [("ids", VStr "u7")])))
      1
    = mkOutcome (Returned (status_json 400 (error_body (VStr "id required")))) [] 1
  /\ run sample_provider
         (delete_user (sample_request "POST" "/admin/delete-user" (Some "Bearer admin-jwt")
                                      (VObj [("id", VStr "u7")])))
         1
     = mkOutcome (Returned (json (VObj [("success", VBool true)])))
                 [auth_admin_deleteUser (VStr "u7")] 2.
Proof.
  split.
  - refine (proj1 (delete_user_requires_id nat sample_provider 1
                     (sample_request "POST" "/admin/delete-user" (Some "Bearer admin-jwt")
                                     (VObj [("ids", VStr "u7")]))) _).
    reflexivity.
  - refine (proj2 (delete_user_requires_id nat sample_provider 1
                     (sample_request "POST" "/admin/delete-user" (Some "Bearer admin-jwt")
                                     (VObj [("id", VStr "u7")])))
                  (sdk_response (VObj [("user", VObj [("id", VStr "u7")])]) VNull)
                  2 _ _ _ _); reflexivity.
Defined.

(** ** Provider failures *)

(** C8.  When the provider's operation answers with an [error], each of
    the three handlers answers 400 with the body
    [{error: error.message}]: the provider's own message, read and passed
    on as it is, whatever else the error carries. *)
Theorem provider_failure_is_400_with_message
    (PState : Type) (provider : PState -> call -> settled * PState)
    (s s' : PState) (req : request) (r : value) :
  truthy (get_prop r "error") = true ->
  (valid_create_user req ->
   provider s (auth_admin_createUser
                 (createUser_attrs (get_prop (req_body req) "email")
                                   (get_prop (req_body req) "password")
                                   (get_prop (req_body req) "user_metadata")))
     = (Fulfilled r, s') ->
   ended (run provider (create_user req) s) =
     Returned (status_json 400 (error_body (get_prop (get_prop r "error") "message"))))
  /\ (provider s auth_admin_listUsers = (Fulfilled r, s') ->
      ended (run provider (list_users req) s) =
        Returned (status_json 400 (error_body (get_prop (get_prop r "error") "message"))))
  /\ (truthy (get_prop (req_body req) "id") = true ->
      provider s (auth_admin_deleteUser (get_prop (req_body req) "id"))
        = (Fulfilled r, s') ->
      ended (run provider (delete_user req) s) =
        Returned (status_json 400 (error_body (get_prop (get_prop r "error") "message")))).
Proof.
  intros Herr.
  assert (Hr : nullish r = false).
  { apply (get_prop_not_nullish r "error"). apply truthy_not_nullish. exact Herr. }
  assert (Hrel : forall ok, relayed r ok =
    Returned (status_json 400 (error_body (get_prop (get_prop r "error") "message")))).
  { intros ok. unfold relayed. rewrite Hr, Herr. reflexivity. }
  repeat split.
  - intros Hvalid Hp.
    rewrite (run_create_user_valid provider req s Hvalid). cbv zeta.
    rewrite Hp. cbn [ended]. apply Hrel.
  - intros Hp. rewrite run_list_users, Hp. cbn [ended]. apply Hrel.
  - intros Hid Hp.
    rewrite (run_delete_user_valid provider req s Hid). cbv zeta.
    rewrite Hp. cbn [ended]. apply Hrel.
Qed.

Lemma provider_failure_is_400_with_message_witness :
  ended (run sample_provider
             (create_user
                (sample_request "POST" "/admin/create-user" (Some "Bearer admin-jwt")
                   (VObj [("email", VStr "dup@b.com"); ("password", VStr "x")])))
             1)
    = Returned (status_json 400 (error_body (VStr "User already registered"))).
Proof.
  refine (proj1 (provider_failure_is_400_with_message nat sample_provider 1 2
                   (sample_request "POST" "/admin/create-user" (Some "Bearer admin-jwt")
                      (VObj [("email", VStr "dup@b.com"); ("password", VStr "x")]))
                   (sdk_response (VObj [("user", VNull)])
                                 (auth_error "User already registered"))
                   _) _ _).
  - reflexivity.
  - split; reflexivity.
  - reflexivity.
Defined.

(** ** Requests without a body *)

(** C9.  With no parsed body at all ([req.body] undefined), create-user and
    delete-user read their fields from the substituted [{}]: they answer
    the 400 of the missing field, make no provider call, and do not throw,
    although destructuring [undefined] itself would. *)
Theorem handlers_tolerate_absent_body
    (PState : Type) (provider : PState -> call -> settled * PState)
    (s : PState) (req : request) :
  req_body req = VUndefined ->
  js_or (req_body req) (VObj []) = VObj []
  /\ run provider (create_user req) s =
       mkOutcome
         (Returned (status_json 400 (error_body (VStr "email and password required"))))
         [] s
  /\ run provider (delete_user req) s =
       mkOutcome (Returned (status_json 400 (error_body (VStr "id required")))) [] s
  /\ require_object_coercible (req_body req) = Throw TypeError.
Proof.
  intros Hb. repeat split.
  - rewrite Hb. reflexivity.
  - rewrite create_user_invalid; [reflexivity|]. left. rewrite Hb. reflexivity.
  - rewrite delete_user_invalid; [reflexivity|]. rewrite Hb. reflexivity.
  - rewrite Hb. reflexivity.
Qed.

Lemma handlers_tolerate_absent_body_witness :
  run sample_provider
      (create_user (sample_request "POST" "/admin/create-user" (Some "Bearer admin-jwt")
                                   VUndefined))
      1
    = mkOutcome
        (Returned (status_json 400 (error_body (VStr "email and password required"))))
        [] 1
  /\ run sample_provider
         (delete_user (sample_request "POST" "/admin/delete-user" (Some "Bearer admin-jwt")
                                      VUndefined))
         1
     = mkOutcome (Returned (status_json 400 (error_body (VStr "id required")))) [] 1.
Proof.
  split.
  - refine (proj1 (proj2 (handlers_tolerate_absent_body nat sample_provider 1
             (sample_request "POST" "/admin/create-user" (Some "Bearer admin-jwt")
                             VUndefined) _))).
    reflexivity.
  - refine (proj1 (proj2 (proj2 (handlers_tolerate_absent_body nat sample_provider 1
             (sample_request "POST" "/admin/delete-user" (Some "Bearer admin-jwt")
                             VUndefined) _)))).
    reflexivity.
Defined.

(** ** Routing and whole requests *)

(** A request is served by the route its method and path select. *)
Lemma app_route (req : request) (ep : endpoint) :
  route req = Some ep -> app req = Some (serve ep req).
Proof. intros Hr. unfold app. rewrite Hr. reflexivity. Qed.

(** Only [/admin/health] is outside the gate. *)
Lemma route_gated (req : request) (ep : endpoint) :
  route req = Some ep ->
  is_gated ep = negb (String.eqb (req_path req) "/admin/health").
Proof.
  unfold route. intros Hr.
  destruct (String.eqb (req_method req) "GET") eqn:Hget;
    destruct (String.eqb (req_method req) "POST") eqn:Hpost;
    destruct (String.eqb (req_path req) "/admin/health") eqn:Hh;
    destruct (String.eqb (req_path req) "/admin/create-user") eqn:Hc;
    destruct (String.eqb (req_path req) "/admin/list-users") eqn:Hl;
    destruct (String.eqb (req_path req) "/admin/delete-user") eqn:Hd;
    cbn in Hr; try discriminate Hr;
    try (apply String.eqb_eq in Hh);
    try (apply String.eqb_eq in Hc);
    try (apply String.eqb_eq in Hl);
    try (apply String.eqb_eq in Hd);
    try congruence;
    injection Hr as <-; reflexivity.
Qed.

(** [/admin/health] answers [{ok: true}] with no header and no provider
    call. *)
Lemma health_is_open
    (PState : Type) (provider : PState -> call -> settled * PState)
    (s : PState) (req : request) :
  run provider (serve Health req) s =
  mkOutcome (Returned (json (VObj [("ok", VBool true)]))) [] s.
Proof. reflexivity. Qed.

(** Numbers: both zeros and NaN are falsy, so [id: 0] counts as a missing
    identifier. *)
Example falsy_numbers :
  truthy (VNum 0%float) = false /\ truthy (VNum (-0)%float) = false /\
  truthy (VNum nan) = false /\ truthy (VNum 7%float) = true.
Proof. repeat split; vm_compute; reflexivity. Qed.

(** An administrator creates a user: the token is resolved, the handler
    forwards the account with the default role, and the created record
    comes back with status 200. *)
Example admin_creates_user :
  option_map (fun p => run sample_provider p 0)
    (app (sample_request "POST" "/admin/create-user" (Some "Bearer admin-jwt")
            (VObj [("email", VStr "a@b.com"); ("password", VStr "x")])))
  = Some (mkOutcome
            (Returned (json (VObj [("user",
               VObj [("email", VStr "a@b.com"); ("password", VStr "x");
                     ("user_metadata", VObj [("role", VStr "user")]);
                     ("email_confirm", VBool true)])])))
            [auth_getUser (VStr "admin-jwt");
             auth_admin_createUser
               (VObj [("email", VStr "a@b.com"); ("password", VStr "x");
                      ("user_metadata", VObj [("role", VStr "user")]);
                      ("email_confirm", VBool true)])]
            2).
Proof. reflexivity. Qed.

(** The header is matched exactly: another case of the scheme, or a
    bearer header with nothing after the space, is no token. *)
Example lowercase_scheme_is_no_token :
  run sample_provider
      (requireAdmin (sample_request "GET" "/admin/list-users" (Some "bearer admin-jwt")
                                    VUndefined)) 0
  = mkOutcome (Returned (Sent (status_json 401 (error_body (VStr "Missing bearer token")))))
              [] 0.
Proof. reflexivity. Qed.

Example empty_bearer_is_no_token :
  run sample_provider
      (requireAdmin (sample_request "GET" "/admin/list-users" (Some "Bearer ") VUndefined)) 0
  = mkOutcome (Returned (Sent (status_json 401 (error_body (VStr "Missing bearer token")))))
              [] 0.
Proof. reflexivity. Qed.

(** A resolved user without any [user_metadata] has no role and is
    refused. *)
Example user_without_metadata_is_forbidden :
  run sample_provider
      (serve ListUsers (sample_request "GET" "/admin/list-users" (Some "Bearer bare-jwt")
                                       VUndefined)) 0
  = mkOutcome (Returned (status_json 403 (error_body (VStr "Admin only"))))
              [auth_getUser (VStr "bare-jwt")] 1.
Proof. reflexivity. Qed.

(** * Further properties of the gate and of whole requests *)

Lemma strict_eq_string_eq (v : value) (t : string) :
  strict_eq_string v t = true <-> v = VStr t.
Proof.
  split.
  - destruct v; simpl; try discriminate.
    intros H. apply String.eqb_eq in H. congruence.
  - intros ->. simpl. apply String.eqb_refl.
Qed.

Lemma no_bearer_or_usable (req : request) :
  no_bearer req \/ exists h, usable_bearer req h.
Proof.
  unfold no_bearer, usable_bearer.
  destruct (req_authorization req) as [h|]; [|left; left; reflexivity].
  destruct (startsWith h "Bearer ") eqn:Hpre.
  - destruct (String.eqb (slice 7 h) "") eqn:Htok.
    + apply String.eqb_eq in Htok. left. right. exists h. auto.
    + apply String.eqb_neq in Htok. right. exists h. auto.
  - left. right. exists h. auto.
Qed.

Lemma no_bearer_not_usable (req : request) (h : string) :
  no_bearer req -> usable_bearer req h -> False.
Proof.
  intros [Hnone | [h' [Hsome [Hpre | Hempty]]]] [Hh [Hp Ht]].
  - congruence.
  - assert (h' = h) by congruence. subst h'. congruence.
  - assert (h' = h) by congruence. subst h'. contradiction.
Qed.

Section WholeGate.

Context {PState : Type} (provider : PState -> call -> settled * PState).

Lemma run_requireAdmin_no_bearer (req : request) (s : PState) :
  no_bearer req ->
  run provider (requireAdmin req) s =
  mkOutcome (Returned (Sent (status_json 401 (error_body (VStr "Missing bearer token")))))
            [] s.
Proof.
  intros Hno. unfold requireAdmin.
  rewrite (requireAdmin_try_no_token req Hno). reflexivity.
Qed.

(** Every way the gate can end once it has a token to ask about. *)
Lemma run_requireAdmin_bearer (req : request) (h : string) (s : PState) :
  usable_bearer req h ->
  exists (o : settled) (s' : PState) (g : gate),
    provider s (auth_getUser (VStr (slice 7 h))) = (o, s') /\
    run provider (requireAdmin req) s =
      mkOutcome (Returned g) [auth_getUser (VStr (slice 7 h))] s' /\
    (g = Sent (status_json 500 (error_body (VStr "Auth verification failed"))) \/
     g = Sent (status_json 401 (error_body (VStr "Invalid token"))) \/
     g = Sent (status_json 403 (error_body (VStr "Admin only"))) \/
     exists r, o = Fulfilled r /\ resolves_admin r /\
               g = Next (set_user req (get_prop (get_prop r "data") "user"))).
Proof.
  intros [Hh [Hpre Htok]].
  destruct (provider s (auth_getUser (VStr (slice 7 h)))) as [[r | e] s'] eqn:Hp.
  - pose proof (requireAdmin_try_fulfilled provider req h s s' r Hh Hpre Htok Hp) as Htry.
    unfold requireAdmin. rewrite run_try_catch_ret, Htry.
    cbn [ended calls provider_after]. cbv zeta.
    destruct (nullish r || nullish (get_prop r "data")).
    { eexists _, _, _. split; [reflexivity|]. split; [reflexivity|]. left. reflexivity. }
    destruct (truthy (get_prop r "error")) eqn:He; cbn [orb].
    { eexists _, _, _. split; [reflexivity|]. split; [reflexivity|].
      right. left. reflexivity. }
    destruct (negb (truthy (get_prop (get_prop r "data") "user"))).
    { eexists _, _, _. split; [reflexivity|]. split; [reflexivity|].
      right. left. reflexivity. }
    destruct (strict_eq_string _ "admin") eqn:Hrole.
    + eexists _, _, _. split; [reflexivity|]. split; [reflexivity|].
      right. right. right. exists r. split; [reflexivity|].
      split; [|reflexivity]. split; [exact He|].
      apply strict_eq_string_eq. exact Hrole.
    + eexists _, _, _. split; [reflexivity|]. split; [reflexivity|].
      right. right. left. reflexivity.
  - pose proof (requireAdmin_try_rejected provider req h s s' e Hh Hpre Htok Hp) as Htry.
    unfold requireAdmin. rewrite run_try_catch_ret, Htry.
    eexists _, _, _. split; [reflexivity|]. split; [reflexivity|]. left. reflexivity.
Qed.

End WholeGate.

(** Handlers never read [req.user]: what the gate attaches does not change
    what they do. *)
Lemma handler_ignores_user (ep : endpoint) (req : request) (u : value) :
  handler ep (set_user req u) = handler ep req.
Proof. destruct ep; reflexivity. Qed.

(** X1.  When the bearer token of a request is resolved to an
    administrator, a gated route runs its handler next, on the provider as
    the token resolution left it: the calls of the whole request are the
    token resolution followed by the handler's own, and the request ends
    as the handler ends. *)
Theorem admin_request_reaches_handler
    (PState : Type) (provider : PState -> call -> settled * PState)
    (s s' : PState) (ep : endpoint) (req : request) (h : string) (r : value) :
  is_gated ep = true ->
  usable_bearer req h ->
  provider s (auth_getUser (VStr (slice 7 h))) = (Fulfilled r, s') ->
  resolves_admin r ->
  run provider (serve ep req) s =
    mkOutcome (ended (run provider (handler ep req) s'))
              (auth_getUser (VStr (slice 7 h)) :: calls (run provider (handler ep req) s'))
              (provider_after (run provider (handler ep req) s')).
Proof.
  intros Hep [Hh [Hpre Htok]] Hp [He Hrole].
  unfold serve. rewrite Hep, run_gated.
  rewrite (gate_admits_admin provider req h s s' r Hh Hpre Htok Hp He).
  - cbn [ended calls provider_after]. cbv zeta.
    rewrite handler_ignores_user. reflexivity.
  - apply strict_eq_string_eq. exact Hrole.
Qed.

Lemma admin_request_reaches_handler_witness :
  run sample_provider
      (serve DeleteUser
         (sample_request "POST" "/admin/delete-user" (Some "Bearer admin-jwt")
                         (VObj [("id", VStr "gone")])))
      0
  = mkOutcome (Returned (status_json 400 (error_body (VStr "User not found"))))
              [auth_getUser (VStr "admin-jwt"); auth_admin_deleteUser (VStr "gone")]
              2.
Proof.
  apply (admin_request_reaches_handler nat sample_provider 0 1 DeleteUser
           (sample_request "POST" "/admin/delete-user" (Some "Bearer admin-jwt")
                           (VObj [("id", VStr "gone")]))
           "Bearer admin-jwt"
           (sdk_response (VObj [("user", sample_user "u1" "admin")]) VNull)).
  - reflexivity.
  - repeat split. discriminate.
  - reflexivity.
  - split; reflexivity.
Defined.

(** X2.  The gate calls the provider at most once and only to resolve the
    token.  It makes no call exactly when the header has no usable bearer
    token, which is exactly when it answers 'Missing bearer token';
    otherwise its one call is [auth.getUser] on the header without its
    first seven characters. *)
Theorem gate_call_discipline
    (PState : Type) (provider : PState -> call -> settled * PState)
    (s : PState) (req : request) :
  (no_bearer req <-> calls (run provider (requireAdmin req) s) = [])
  /\ (no_bearer req <->
      ended (run provider (requireAdmin req) s) =
      Returned (Sent (status_json 401 (error_body (VStr "Missing bearer token")))))
  /\ (forall h, usable_bearer req h ->
        calls (run provider (requireAdmin req) s) = [auth_getUser (VStr (slice 7 h))]).
Proof.
  assert (Hyes : forall h, usable_bearer req h ->
            calls (run provider (requireAdmin req) s) = [auth_getUser (VStr (slice 7 h))]
            /\ ended (run provider (requireAdmin req) s) <>
               Returned (Sent (status_json 401 (error_body (VStr "Missing bearer token"))))).
  { intros h Hu.
    destruct (run_requireAdmin_bearer provider req h s Hu)
      as [o [s' [g [_ [Hrun Hg]]]]].
    rewrite Hrun. cbn [calls ended]. split; [reflexivity|].
    destruct Hg as [-> | [-> | [-> | [r [_ [_ ->]]]]]]; discriminate. }
  split; [|split].
  - split.
    + intros Hno. rewrite (run_requireAdmin_no_bearer provider req s Hno). reflexivity.
    + intros Hcalls. destruct (no_bearer_or_usable req) as [Hno | [h Hu]]; [exact Hno|].
      destruct (Hyes h Hu) as [Hc _]. rewrite Hc in Hcalls. discriminate.
  - split.
    + intros Hno. rewrite (run_requireAdmin_no_bearer provider req s Hno). reflexivity.
    + intros Hend. destruct (no_bearer_or_usable req) as [Hno | [h Hu]]; [exact Hno|].
      destruct (Hyes h Hu) as [_ Hne]. contradiction.
  - intros h Hu. apply (Hyes h Hu).
Qed.

(** X3.  The gate always comes to a decision and there are five of them:
    [next()] on the same request with only [req.user] set, or one of four
    fixed responses, 401 'Missing bearer token', 401 'Invalid token',
    403 'Admin only' and 500 'Auth verification failed'. *)
Theorem gate_decisions
    (PState : Type) (provider : PState -> call -> settled * PState)
    (s : PState) (req : request) :
  exists g : gate,
    ended (run provider (requireAdmin req) s) = Returned g /\
    ((exists u : value, g = Next (set_user req u)) \/
     g = Sent (status_json 401 (error_body (VStr "Missing bearer token"))) \/
     g = Sent (status_json 401 (error_body (VStr "Invalid token"))) \/
     g = Sent (status_json 403 (error_body (VStr "Admin only"))) \/
     g = Sent (status_json 500 (error_body (VStr "Auth verification failed")))).
Proof.
  destruct (no_bearer_or_usable req) as [Hno | [h Hu]].
  - rewrite (run_requireAdmin_no_bearer provider req s Hno).
    eexists. split; [reflexivity|]. right. left. reflexivity.
  - destruct (run_requireAdmin_bearer provider req h s Hu)
      as [o [s' [g [_ [Hrun Hg]]]]].
    rewrite Hrun. exists g. split; [reflexivity|].
    destruct Hg as [-> | [-> | [-> | [r [_ [_ ->]]]]]]; eauto 6.
Qed.

(** X4.  The gate lets a request through only for an administrator: if it
    calls [next()], the header carried a bearer token, the provider
    fulfilled its resolution without an error and with a user whose
    [user_metadata.role] is exactly the string 'admin', and that user is
    what the gate attached; method, path, header and body are untouched. *)
Theorem gate_permits_only_admin
    (PState : Type) (provider : PState -> call -> settled * PState)
    (s : PState) (req req' : request) :
  ended (run provider (requireAdmin req) s) = Returned (Next req') ->
  exists (h : string) (r : value) (s' : PState),
    usable_bearer req h /\
    provider s (auth_getUser (VStr (slice 7 h))) = (Fulfilled r, s') /\
    resolves_admin r /\
    req_user req' = get_prop (get_prop r "data") "user" /\
    req_method req' = req_method req /\
    req_path req' = req_path req /\
    req_authorization req' = req_authorization req /\
    req_body req' = req_body req.
Proof.
  intros Hnext.
  destruct (no_bearer_or_usable req) as [Hno | [h Hu]].
  - rewrite (run_requireAdmin_no_bearer provider req s Hno) in Hnext. discriminate.
  - destruct (run_requireAdmin_bearer provider req h s Hu)
      as [o [s' [g [Hp [Hrun Hg]]]]].
    rewrite Hrun in Hnext. cbn [ended] in Hnext.
    destruct Hg as [-> | [-> | [-> | [r [-> [Hadm ->]]]]]]; try discriminate.
    injection Hnext as <-.
    exists h, r, s'. repeat split; try assumption; apply Hu || apply Hadm.
Qed.

Lemma gate_permits_only_admin_witness :
  exists (h : string) (r : value) (s' : nat),
    usable_bearer
      (sample_request "GET" "/admin/list-users" (Some "Bearer admin-jwt") VUndefined) h /\
    sample_provider 0 (auth_getUser (VStr (slice 7 h))) = (Fulfilled r, s') /\
    resolves_admin r.
Proof.
  destruct (gate_permits_only_admin nat sample_provider 0
              (sample_request "GET" "/admin/list-users" (Some "Bearer admin-jwt") VUndefined)
              (mkRequest "GET" "/admin/list-users" (Some "Bearer admin-jwt") VUndefined
                         (sample_user "u1" "admin"))
              eq_refl)
    as [h [r [s' [Hu [Hp [Hadm _]]]]]].
  exists h, r, s'. repeat split; try apply Hu; try apply Hadm. exact Hp.
Defined.

(** * Further properties of the relay handlers *)

Section WholeHandlers.

Context {PState : Type} (provider : PState -> call -> settled * PState).

(** Every way a handler can run: no call or one privileged call, and a
    response, when there is one, that is a 200 or a 400 with an [error]
    field. *)
Lemma run_handler_cases (ep : endpoint) (req : request) (s : PState) :
  (calls (run provider (handler ep req) s) = [] \/
   exists c, is_privileged c = true /\ calls (run provider (handler ep req) s) = [c])
  /\ (forall resp, ended (run provider (handler ep req) s) = Returned resp ->
        res_status resp = 200 \/
        (res_status resp = 400 /\ exists msg, res_body resp = error_body msg)).
Proof.
  assert (Hrel : forall r ok resp,
            (forall resp', ok = Returned resp' -> res_status resp' = 200) ->
            relayed r ok = Returned resp ->
            res_status resp = 200 \/
            (res_status resp = 400 /\ exists msg, res_body resp = error_body msg)).
  { intros r ok resp Hok. unfold relayed.
    destruct (nullish r); [discriminate|].
    destruct (truthy (get_prop r "error")).
    - intros H. injection H as <-. right. split; [reflexivity|]. eexists. reflexivity.
    - intros H. left. apply (Hok _ H). }
  destruct ep; cbn [handler].
  - split; [left; reflexivity|]. intros resp H. injection H as <-. left. reflexivity.
  - destruct (truthy (get_prop (req_body req) "email")) eqn:He;
      [destruct (truthy (get_prop (req_body req) "password")) eqn:Hp|].
    + rewrite (run_create_user_valid provider req s (conj He Hp)). cbv zeta.
      destruct (provider s _) as [[r | e] s']; cbn [calls ended].
      * split; [right; eexists; split; [|reflexivity]; reflexivity|].
        intros resp. apply Hrel. intros resp'.
        destruct (nullish (get_prop r "data")); [discriminate|].
        intros H. injection H as <-. reflexivity.
      * split; [right; eexists; split; [|reflexivity]; reflexivity|]. discriminate.
    + rewrite create_user_invalid by (right; exact Hp).
      split; [left; reflexivity|]. intros resp H. injection H as <-.
      right. split; [reflexivity|]. eexists. reflexivity.
    + rewrite create_user_invalid by (left; exact He).
      split; [left; reflexivity|]. intros resp H. injection H as <-.
      right. split; [reflexivity|]. eexists. reflexivity.
  - rewrite run_list_users.
    destruct (provider s _) as [[r | e] s']; cbn [calls ended].
    + split; [right; eexists; split; [|reflexivity]; reflexivity|].
      intros resp. apply Hrel. intros resp'.
      destruct (nullish (get_prop r "data")); [discriminate|].
      intros H. injection H as <-. reflexivity.
    + split; [right; eexists; split; [|reflexivity]; reflexivity|]. discriminate.
  - destruct (truthy (get_prop (req_body req) "id")) eqn:Hid.
    + rewrite (run_delete_user_valid provider req s Hid). cbv zeta.
      destruct (provider s _) as [[r | e] s']; cbn [calls ended].
      * split; [right; eexists; split; [|reflexivity]; reflexivity|].
        intros resp. apply Hrel. intros resp' H. injection H as <-. reflexivity.
      * split; [right; eexists; split; [|reflexivity]; reflexivity|]. discriminate.
    + rewrite delete_user_invalid by exact Hid.
      split; [left; reflexivity|]. intros resp H. injection H as <-.
      right. split; [reflexivity|]. eexists. reflexivity.
Qed.

End WholeHandlers.

(** X5.  No privileged operation without an administrator: on every
    endpoint, if the run of a request contains a call to
    [auth.admin.createUser], [listUsers] or [deleteUser], then the request
    carried a bearer token that the provider had resolved, without error,
    to a user whose role is exactly 'admin'. *)
Theorem privileged_call_needs_admin
    (PState : Type) (provider : PState -> call -> settled * PState)
    (s : PState) (ep : endpoint) (req : request) (c : call) :
  In c (calls (run provider (serve ep req) s)) ->
  is_privileged c = true ->
  exists (h : string) (r : value) (s' : PState),
    usable_bearer req h /\
    provider s (auth_getUser (VStr (slice 7 h))) = (Fulfilled r, s') /\
    resolves_admin r.
Proof.
  intros Hin Hpriv. unfold serve in Hin.
  destruct (is_gated ep) eqn:Hep.
  2: { destruct ep; try discriminate Hep. cbn in Hin. contradiction. }
  rewrite run_gated in Hin. cbv zeta in Hin.
  destruct (no_bearer_or_usable req) as [Hno | [h Hu]].
  { rewrite (run_requireAdmin_no_bearer provider req s Hno) in Hin.
    cbn in Hin. contradiction. }
  destruct (run_requireAdmin_bearer provider req h s Hu)
    as [o [s' [g [Hp [Hrun Hg]]]]].
  rewrite Hrun in Hin. cbn [ended calls provider_after] in Hin.
  assert (Hgetuser : In c [auth_getUser (VStr (slice 7 h))] -> False).
  { intros [<- | []]. discriminate Hpriv. }
  destruct Hg as [-> | [-> | [-> | [r [-> [Hadm ->]]]]]];
    try (exfalso; exact (Hgetuser Hin)).
  exists h, r, s'. auto.
Qed.

Lemma privileged_call_needs_admin_witness :
  exists (h : string) (r : value) (s' : nat),
    usable_bearer
      (sample_request "GET" "/admin/list-users" (Some "Bearer admin-jwt") VUndefined) h /\
    sample_provider 0 (auth_getUser (VStr (slice 7 h))) = (Fulfilled r, s') /\
    resolves_admin r.
Proof.
  apply (privileged_call_needs_admin nat sample_provider 0 ListUsers
           (sample_request "GET" "/admin/list-users" (Some "Bearer admin-jwt") VUndefined)
           auth_admin_listUsers).
  - right. left. reflexivity.
  - reflexivity.
Defined.

(** X6.  No retries and no extra lookups: a handler calls the provider at
    most once, so a whole request makes at most two provider calls, the
    token resolution and the operation. *)
Theorem at_most_two_provider_calls
    (PState : Type) (provider : PState -> call -> settled * PState)
    (s : PState) (ep : endpoint) (req : request) :
  length (calls (run provider (handler ep req) s)) <= 1
  /\ length (calls (run provider (serve ep req) s)) <= 2.
Proof.
  assert (Hh : forall req0 s0, length (calls (run provider (handler ep req0) s0)) <= 1).
  { intros req0 s0.
    destruct (run_handler_cases provider ep req0 s0) as [[Hc | [c [_ Hc]]] _];
      rewrite Hc; simpl; lia. }
  split; [apply Hh|].
  unfold serve. destruct (is_gated ep).
  2: { specialize (Hh req s). lia. }
  rewrite run_gated. cbv zeta.
  destruct (no_bearer_or_usable req) as [Hno | [h Hu]].
  { rewrite (run_requireAdmin_no_bearer provider req s Hno). simpl. lia. }
  destruct (run_requireAdmin_bearer provider req h s Hu)
    as [o [s' [g [_ [Hrun Hg]]]]].
  rewrite Hrun. cbn [ended calls provider_after].
  destruct Hg as [-> | [-> | [-> | [r [_ [_ ->]]]]]]; cbn [calls]; simpl; try lia.
  specialize (Hh (set_user req (get_prop (get_prop r "data") "user")) s'). lia.
Qed.



(** X8.  Create-user, success: for a valid request, when the provider
    fulfils the create-account call with no [error] and some [data], the
    handler answers 200 with [{user: data.user}], the record as the
    provider returned it, after that single call. *)
Theorem create_user_success
    (PState : Type) (provider : PState -> call -> settled * PState)
    (s s' : PState) (req : request) (r : value) :
  valid_create_user req ->
  provider s (auth_admin_createUser
                (createUser_attrs (get_prop (req_body req) "email")
                                  (get_prop (req_body req) "password")
                                  (get_prop (req_body req) "user_metadata")))
    = (Fulfilled r, s') ->
  truthy (get_prop r "error") = false ->
  nullish (get_prop r "data") = false ->
  run provider (create_user req) s =
    mkOutcome
      (Returned (json (VObj [("user", get_prop (get_prop r "data") "user")])))
      [auth_admin_createUser
         (createUser_attrs (get_prop (req_body req) "email")
                           (get_prop (req_body req) "password")
                           (get_prop (req_body req) "user_metadata"))]
      s'.
Proof.
  intros Hvalid Hp He Hd.
  rewrite (run_create_user_valid provider req s Hvalid). cbv zeta.
  rewrite Hp. unfold relayed.
  rewrite (get_prop_not_nullish _ _ Hd), He, Hd. reflexivity.
Qed.

Lemma create_user_success_witness :
  ended (run sample_provider
           (create_user
              (sample_request "POST" "/admin/create-user" (Some "Bearer admin-jwt")
                 (VObj [("email", VStr "a@b.com"); ("password", VStr "x");
                        ("user_metadata", VObj [("role", VStr "admin")])])))
           1)
  = Returned (json (VObj [("user",
      VObj [("email", VStr "a@b.com"); ("password", VStr "x");
            ("user_metadata", VObj [("role", VStr "admin")]);
            ("email_confirm", VBool true)])])).
Proof.
  rewrite (create_user_success nat sample_provider 1 2
             (sample_request "POST" "/admin/create-user" (Some "Bearer admin-jwt")
                (VObj [("email", VStr "a@b.com"); ("password", VStr "x");
                       ("user_metadata", VObj [("role", VStr "admin")])]))
             (sdk_response
                (VObj [("user",
                   VObj [("email", VStr "a@b.com"); ("password", VStr "x");
                         ("user_metadata", VObj [("role", VStr "admin")]);
                         ("email_confirm", VBool true)])])
                VNull)).
  - reflexivity.
  - split; reflexivity.
  - reflexivity.
  - reflexivity.
  - reflexivity.
Defined.

(** X9.  List-users never looks at the request: whatever the request and
    the provider, its one call is [auth.admin.listUsers()] without
    arguments; and when that call is fulfilled with no [error] and some
    [data], the answer is 200 with [{users: data.users}]. *)
Theorem list_users_relays_collection
    (PState : Type) (provider : PState -> call -> settled * PState)
    (s : PState) (req : request) :
  calls (run provider (list_users req) s) = [auth_admin_listUsers]
  /\ (forall (r : value) (s' : PState),
        provider s auth_admin_listUsers = (Fulfilled r, s') ->
        truthy (get_prop r "error") = false ->
        nullish (get_prop r "data") = false ->
        run provider (list_users req) s =
          mkOutcome
            (Returned (json (VObj [("users", get_prop (get_prop r "data") "users")])))
            [auth_admin_listUsers] s').
Proof.
  rewrite run_list_users. split.
  - destruct (provider s auth_admin_listUsers) as [[r | e] s']; reflexivity.
  - intros r s' Hp He Hd. rewrite Hp. unfold relayed.
    rewrite (get_prop_not_nullish _ _ Hd), He, Hd. reflexivity.
Qed.

Lemma list_users_relays_collection_witness :
  run sample_provider
      (list_users (sample_request "GET" "/admin/list-users" (Some "Bearer admin-jwt")
                                  (VObj [("page", VStr "2")])))
      1
  = mkOutcome
      (Returned (json (VObj [("users", VArr [sample_user "u1" "admin"])])))
      [auth_admin_listUsers] 2.
Proof.
  refine (proj2 (list_users_relays_collection nat sample_provider 1
                   (sample_request "GET" "/admin/list-users" (Some "Bearer admin-jwt")
                                   (VObj [("page", VStr "2")])))
                (sdk_response (VObj [("users", VArr [sample_user "u1" "admin"])]) VNull)
                2 _ _ _); reflexivity.
Defined.

(** X10.  The handlers have no [catch]: when the provider's promise is
    rejected during the operation itself, the handler ends by throwing the
    rejection reason and sends no response, neither a 400 nor a 500. *)
Theorem handler_rejection_propagates
    (PState : Type) (provider : PState -> call -> settled * PState)
    (s s' : PState) (req : request) (e : value) :
  (valid_create_user req ->
   provider s (auth_admin_createUser
                 (createUser_attrs (get_prop (req_body req) "email")
                                   (get_prop (req_body req) "password")
                                   (get_prop (req_body req) "user_metadata")))
     = (Rejected e, s') ->
   ended (run provider (create_user req) s) = Thrown e)
  /\ (provider s auth_admin_listUsers = (Rejected e, s') ->
      ended (run provider (list_users req) s) = Thrown e)
  /\ (truthy (get_prop (req_body req) "id") = true ->
      provider s (auth_admin_deleteUser (get_prop (req_body req) "id"))
        = (Rejected e, s') ->
      ended (run provider (delete_user req) s) = Thrown e).
Proof.
  split; [|split].
  - intros Hvalid Hp.
    rewrite (run_create_user_valid provider req s Hvalid). cbv zeta.
    rewrite Hp. reflexivity.
  - intros Hp. rewrite run_list_users, Hp. reflexivity.
  - intros Hid Hp.
    rewrite (run_delete_user_valid provider req s Hid). cbv zeta.
    rewrite Hp. reflexivity.
Qed.

Lemma handler_rejection_propagates_witness :
  ended (run outage_provider
           (serve DeleteUser
              (sample_request "POST" "/admin/delete-user" (Some "Bearer admin-jwt")
                              (VObj [("id", VStr "u7")])))
           0)
    = Thrown (VObj [("name", VStr "FetchError")])
  /\ ended (run outage_provider
              (delete_user
                 (sample_request "POST" "/admin/delete-user" (Some "Bearer admin-jwt")
                                 (VObj [("id", VStr "u7")])))
              1)
     = Thrown (VObj [("name", VStr "FetchError")]).
Proof.
  split; [reflexivity|].
  refine (proj2 (proj2 (handler_rejection_propagates nat outage_provider 1 2
            (sample_request "POST" "/admin/delete-user" (Some "Bearer admin-jwt")
                            (VObj [("id", VStr "u7")]))
            (VObj [("name", VStr "FetchError")]))) _ _); reflexivity.
Defined.

(** X11.  An answer without [error] and without [data]: create-user and
    list-users read a field of [data] and so end in a TypeError, after the
    provider call has been made; delete-user never reads [data] and
    answers [{success: true}]. *)
Theorem success_without_data
    (PState : Type) (provider : PState -> call -> settled * PState)
    (s s' : PState) (req : request) (r : value) :
  nullish r = false ->
  truthy (get_prop r "error") = false ->
  nullish (get_prop r "data") = true ->
  (valid_create_user req ->
   provider s (auth_admin_createUser
                 (createUser_attrs (get_prop (req_body req) "email")
                                   (get_prop (req_body req) "password")
                                   (get_prop (req_body req) "user_metadata")))
     = (Fulfilled r, s') ->
   run provider (create_user req) s =
     mkOutcome (Thrown TypeError)
       [auth_admin_createUser
          (createUser_attrs (get_prop (req_body req) "email")
                            (get_prop (req_body req) "password")
                            (get_prop (req_body req) "user_metadata"))]
       s')
  /\ (provider s auth_admin_listUsers = (Fulfilled r, s') ->
      run provider (list_users req) s =
        mkOutcome (Thrown TypeError) [auth_admin_listUsers] s')
  /\ (truthy (get_prop (req_body req) "id") = true ->
      provider s (auth_admin_deleteUser (get_prop (req_body req) "id"))
        = (Fulfilled r, s') ->
      run provider (delete_user req) s =
        mkOutcome (Returned (json (VObj [("success", VBool true)])))
                  [auth_admin_deleteUser (get_prop (req_body req) "id")] s').
Proof.
  intros Hr He Hd. split; [|split].
  - intros Hvalid Hp.
    rewrite (run_create_user_valid provider req s Hvalid). cbv zeta.
    rewrite Hp. unfold relayed. rewrite Hr, He, Hd. reflexivity.
  - intros Hp. rewrite run_list_users, Hp. unfold relayed.
    rewrite Hr, He, Hd. reflexivity.
  - intros Hid Hp.
    rewrite (run_delete_user_valid provider req s Hid). cbv zeta.
    rewrite Hp. unfold relayed. rewrite Hr, He. reflexivity.
Qed.

Lemma success_without_data_witness :
  run dataless_provider
      (list_users (sample_request "GET" "/admin/list-users" (Some "Bearer admin-jwt")
                                  VUndefined))
      1
  = mkOutcome (Thrown TypeError) [auth_admin_listUsers] 2.
Proof.
  refine (proj1 (proj2 (success_without_data nat dataless_provider 1 2
            (sample_request "GET" "/admin/list-users" (Some "Bearer admin-jwt") VUndefined)
            (sdk_response VNull VNull) _ _ _)) _); reflexivity.
Defined.

(** * The token, the identifier and the empty values *)

Lemma substring_whole (t : string) : String.substring 0 (String.length t) t = t.
Proof. induction t as [|a t IH]; simpl; [reflexivity|]. rewrite IH. reflexivity. Qed.

(** What follows ["Bearer "] is the token, character for character. *)
Lemma bearer_header_token (t : string) :
  startsWith ("Bearer " ++ t) "Bearer " = true /\ slice 7 ("Bearer " ++ t) = t.
Proof.
  split.
  - unfold startsWith. simpl. destruct t; reflexivity.
  - unfold slice. simpl. rewrite Nat.sub_0_r. apply substring_whole.
Qed.

(** X12.  The token goes to the provider verbatim: for every non-empty
    string [t], a request whose header is ["Bearer "] followed by [t] makes
    the gate ask the provider about exactly [t], nothing trimmed, decoded
    or checked locally, and about nothing else. *)
Theorem bearer_token_verbatim
    (PState : Type) (provider : PState -> call -> settled * PState)
    (s : PState) (req : request) (t : string) :
  t <> "" ->
  req_authorization req = Some ("Bearer " ++ t) ->
  calls (run provider (requireAdmin req) s) = [auth_getUser (VStr t)].
Proof.
  intros Ht Hh.
  destruct (bearer_header_token t) as [Hpre Hslice].
  assert (Hu : usable_bearer req ("Bearer " ++ t)).
  { unfold usable_bearer. rewrite Hslice. auto. }
  destruct (run_requireAdmin_bearer provider req _ s Hu)
    as [o [s' [g [_ [Hrun _]]]]].
  rewrite Hrun, Hslice. reflexivity.
Qed.

Lemma bearer_token_verbatim_witness :
  calls (run sample_provider
           (requireAdmin
              (sample_request "GET" "/admin/list-users" (Some "Bearer  a.b c ") VUndefined))
           0)
  = [auth_getUser (VStr " a.b c ")].
Proof.
  apply (bearer_token_verbatim nat sample_provider 0
           (sample_request "GET" "/admin/list-users" (Some "Bearer  a.b c ") VUndefined)
           " a.b c ").
  - discriminate.
  - reflexivity.
Defined.

(** X13.  Delete-user performs no lookup of its own: for every truthy
    [id], of whatever type, and whatever the provider and its state, the
    handler's one call is [auth.admin.deleteUser(id)] with the [id] as
    given. *)
Theorem delete_user_forwards_id
    (PState : Type) (provider : PState -> call -> settled * PState)
    (s : PState) (req : request) :
  truthy (get_prop (req_body req) "id") = true ->
  calls (run provider (delete_user req) s) =
  [auth_admin_deleteUser (get_prop (req_body req) "id")].
Proof.
  intros Hid. rewrite (run_delete_user_valid provider req s Hid). cbv zeta.
  destruct (provider s _) as [[r | e] s']; reflexivity.
Qed.

Lemma delete_user_forwards_id_witness :
  calls (run sample_provider
           (delete_user
              (sample_request "POST" "/admin/delete-user" (Some "Bearer admin-jwt")
                              (VObj [("id", VArr [VStr "u1"; VStr "u2"])])))
           5)
  = [auth_admin_deleteUser (VArr [VStr "u1"; VStr "u2"])].
Proof.
  apply (delete_user_forwards_id nat sample_provider 5
           (sample_request "POST" "/admin/delete-user" (Some "Bearer admin-jwt")
                           (VObj [("id", VArr [VStr "u1"; VStr "u2"])]))).
  reflexivity.
Defined.

(** X14.  Present but empty counts as missing: a create-user body whose
    [email] or [password] is falsy (the empty string, [null], [false], a
    zero) and a delete-user body whose [id] is falsy get the same 400 as a
    body without the field, and the provider is not called. *)
Theorem falsy_fields_count_as_missing
    (PState : Type) (provider : PState -> call -> settled * PState)
    (s : PState) (req : request) :
  (truthy (get_prop (req_body req) "email") = false \/
   truthy (get_prop (req_body req) "password") = false ->
   run provider (create_user req) s =
     mkOutcome
       (Returned (status_json 400 (error_body (VStr "email and password required"))))
       [] s)
  /\ (truthy (get_prop (req_body req) "id") = false ->
      run provider (delete_user req) s =
        mkOutcome (Returned (status_json 400 (error_body (VStr "id required")))) [] s).
Proof.
  split.
  - intros Hmiss. rewrite create_user_invalid by exact Hmiss. reflexivity.
  - intros Hid. rewrite delete_user_invalid by exact Hid. reflexivity.
Qed.

Lemma falsy_fields_count_as_missing_witness :
  run sample_provider
      (create_user
         (sample_request "POST" "/admin/create-user" (Some "Bearer admin-jwt")
                         (VObj [("email", VStr "a@b.com"); ("password", VStr "")])))
      1
    = mkOutcome
        (Returned (status_json 400 (error_body (VStr "email and password required"))))
        [] 1
  /\ run sample_provider
         (delete_user
            (sample_request "POST" "/admin/delete-user" (Some "Bearer admin-jwt")
                            (VObj [("id", VNum 0%float)])))
         1
     = mkOutcome (Returned (status_json 400 (error_body (VStr "id required")))) [] 1.
Proof.
  split.
  - refine (proj1 (falsy_fields_count_as_missing nat sample_provider 1
             (sample_request "POST" "/admin/create-user" (Some "Bearer admin-jwt")
                             (VObj [("email", VStr "a@b.com"); ("password", VStr "")]))) _).
    right. reflexivity.
  - refine (proj2 (falsy_fields_count_as_missing nat sample_provider 1
             (sample_request "POST" "/admin/delete-user" (Some "Bearer admin-jwt")
                             (VObj [("id", VNum 0%float)]))) _).
    vm_compute. reflexivity.
Defined.
